(** * vmioplugin: the plugin interface of the vGPU device model

    A shallow embedding of [sdk/vmioplugin/inc/vmioplugin.h].  The header
    holds the enumerations and structures of the interface, three inline
    functions ([vmiop_plugin_class_to_mask], [vmiop_plugin_class_in_set],
    [vmiop_buffer_release]) and the documented declarations of the
    services the emulation environment supplies.

    Data model: LP64 Linux, the platform of the device model.  [int] and
    [unsigned int] are 32 bits wide, [uint32_t] is [unsigned int],
    [unsigned long] and [uint64_t] are 64 bits wide.  A value of an
    unsigned w-bit type is a [Z] in [0, 2^w); conversion to the type
    reduces modulo [2^w].  An operation the C standard leaves undefined
    has no result ([None], or [Undef] for a call). *)

From Stdlib Require Import ZArith Lia List Bool.
From stdpp Require Import base option list gmap.

Local Open Scope Z_scope.

(** ** Fixed-width unsigned integers *)

Definition UINT32_WIDTH : Z := 32.
Definition UINT64_WIDTH : Z := 64.

Definition to_uint32 (z : Z) : Z := z mod 2 ^ UINT32_WIDTH.
Definition to_uint64 (z : Z) : Z := z mod 2 ^ UINT64_WIDTH.

Definition is_uint32 (z : Z) : Prop := 0 <= z < 2 ^ UINT32_WIDTH.
Definition is_uint64 (z : Z) : Prop := 0 <= z < 2 ^ UINT64_WIDTH.

(** [a << n] where the promoted left operand is a 32-bit unsigned value.
    C11 6.5.7p3: the behaviour is undefined when [n] is negative or is
    greater than or equal to the width of the promoted left operand;
    otherwise (6.5.7p4) the result is [a * 2^n] reduced modulo [2^32]. *)
Definition shl_uint32 (a n : Z) : option Z :=
  if (0 <=? n) && (n <? UINT32_WIDTH)
  then Some (to_uint32 (Z.shiftl a n))
  else None.

(** The [int] value of a C comparison. *)
Definition c_truth (b : bool) : Z := if b then 1 else 0.

(** ** Error codes: [enum vmiop_error_e] *)

Inductive vmiop_error_t : Set :=
| vmiop_success
| vmiop_error_inval
| vmiop_error_resource
| vmiop_error_range
| vmiop_error_read_only
| vmiop_error_not_found
| vmiop_error_no_address_space
| vmiop_error_timeout
| vmiop_error_not_allowed_in_callback.

(** The enumerators' values as the enumeration assigns them. *)
Definition error_code (e : vmiop_error_t) : Z :=
  match e with
  | vmiop_success => 0
  | vmiop_error_inval => 1
  | vmiop_error_resource => 2
  | vmiop_error_range => 3
  | vmiop_error_read_only => 4
  | vmiop_error_not_found => 5
  | vmiop_error_no_address_space => 6
  | vmiop_error_timeout => 7
  | vmiop_error_not_allowed_in_callback => 8
  end.

(** The enumeration's other names: [vmiop_error_none] is a second name of
    success, [vmiop_error_min] and [vmiop_error_max] bound the codes. *)
Definition vmiop_error_none : vmiop_error_t := vmiop_success.
Definition vmiop_error_min : Z := 0.
Definition vmiop_error_max : Z := 8.

Definition error_of_code (z : Z) : option vmiop_error_t :=
  match z with
  | 0 => Some vmiop_success
  | 1 => Some vmiop_error_inval
  | 2 => Some vmiop_error_resource
  | 3 => Some vmiop_error_range
  | 4 => Some vmiop_error_read_only
  | 5 => Some vmiop_error_not_found
  | 6 => Some vmiop_error_no_address_space
  | 7 => Some vmiop_error_timeout
  | 8 => Some vmiop_error_not_allowed_in_callback
  | _ => None
  end.

Definition all_errors : list vmiop_error_t :=
  [ vmiop_success; vmiop_error_inval; vmiop_error_resource; vmiop_error_range;
    vmiop_error_read_only; vmiop_error_not_found; vmiop_error_no_address_space;
    vmiop_error_timeout; vmiop_error_not_allowed_in_callback ].

#[global] Instance vmiop_error_eq_dec : EqDecision vmiop_error_t.
Proof. solve_decision. Defined.

(** ** Handles and booleans *)

(** [typedef uint32_t vmiop_handle_t]; [VMIOP_HANDLE_NULL] never refers to
    an object. *)
Definition VMIOP_HANDLE_NULL : Z := to_uint32 0.

(** [enum vmiop_bool_e]. *)
Inductive vmiop_bool_t : Set := vmiop_false | vmiop_true.

Definition bool_code (b : vmiop_bool_t) : Z :=
  match b with vmiop_false => 0 | vmiop_true => 1 end.

(** ** Plugin classes and class sets *)

(** [enum vmiop_plugin_class_e]; a [vmiop_plugin_class_t] is a [uint32_t]
    whose value is one of these. *)
Definition vmiop_plugin_class_min : Z := 0.
Definition vmiop_plugin_class_null : Z := 0.
Definition vmiop_plugin_class_display : Z := 1.
Definition vmiop_plugin_class_presentation : Z := 9.
Definition vmiop_plugin_class_max : Z := 9.

(** [#define vmiop_const_plugin_class_to_mask(y)
      (((vmiop_plugin_class_set_t) 1ul) << (y))]:
    the macro's argument is used as it stands. *)
Definition vmiop_const_plugin_class_to_mask (y : Z) : option Z :=
  shl_uint32 (to_uint32 1) y.

(** The inline function: its argument is first converted to the
    parameter's type, [vmiop_plugin_class_t]. *)
Definition vmiop_plugin_class_to_mask (y : Z) : option Z :=
  let y := to_uint32 y in
  shl_uint32 (to_uint32 1) y.

(** [return(((x) & vmiop_plugin_class_to_mask(y)) != 0);] *)
Definition vmiop_plugin_class_in_set (x y : Z) : option Z :=
  let x := to_uint32 x in
  let y := to_uint32 y in
  match vmiop_plugin_class_to_mask y with
  | Some mask => Some (c_truth (negb (Z.land x mask =? 0)))
  | None => None
  end.

(** ** Calls *)

(** The result of a call: it returns a value, or its behaviour is
    undefined (an access through a pointer to no object, a call through
    a pointer to no function, a shift the standard leaves undefined). *)
Inductive outcome (A : Type) : Type :=
| Returns (a : A)
| Undef.
Arguments Returns {A} a.
Arguments Undef {A}.

(** ** Buffers *)

Definition NULL : Z := 0.

(** [struct vmiop_list_header_s]: links the environment keeps. *)
Record vmiop_list_header_t : Set := {
  next : Z;
  prev : Z
}.

(** [struct vmiop_buffer_element_s]: [data_p] and [length]. *)
Record vmiop_buffer_element_t : Set := {
  data_p : Z;
  el_length : Z
}.

(** [struct vmiop_buffer_s].  [release_p] is the address of a release
    routine; [element] is the array the field points to. *)
Record vmiop_buffer_t : Set := {
  list_head : vmiop_list_header_t;
  source_class : Z;
  destination_class : Z;
  release_p : Z;
  references : Z;
  count : Z;
  element : list vmiop_buffer_element_t;
  discard_config : vmiop_bool_t
}.

Definition set_references (b : vmiop_buffer_t) (n : Z) : vmiop_buffer_t :=
  {| list_head := list_head b; source_class := source_class b;
     destination_class := destination_class b; release_p := release_p b;
     references := n; count := count b; element := element b;
     discard_config := discard_config b |}.

Definition set_release_p (b : vmiop_buffer_t) (f : Z) : vmiop_buffer_t :=
  {| list_head := list_head b; source_class := source_class b;
     destination_class := destination_class b; release_p := f;
     references := references b; count := count b; element := element b;
     discard_config := discard_config b |}.

(** The buffer objects of the address space, by address. *)
Abbreviation memory := (gmap Z vmiop_buffer_t).

(** [*buf_p]: there is no object at [NULL], nor at an address that holds
    no buffer. *)
Definition load_buffer (m : memory) (buf_p : Z) : option vmiop_buffer_t :=
  if decide (buf_p = NULL) then None else m !! buf_p.

(** A [vmiop_buffer_release_t]: the routine a [release_p] points to. *)
Abbreviation release_routine :=
  (memory -> Z -> outcome (vmiop_error_t * memory)).

(** [static inline vmiop_error_t vmiop_buffer_release(vmiop_buffer_ref_t buf_p)
      { return(buf_p->release_p(buf_p)); }]
    [text] holds the routines of the program, by address. *)
Definition vmiop_buffer_release (text : gmap Z release_routine)
    (m : memory) (buf_p : Z) : outcome (vmiop_error_t * memory) :=
  match load_buffer m buf_p with
  | None => Undef
  | Some b =>
      match text !! release_p b with
      | None => Undef
      | Some routine => routine m buf_p
      end
  end.

(** Modelled from the spec: the body of [vmiop_buffer_free], which the
    header only declares.  It decrements the reference count and, if it
    goes to zero, frees the buffer; a NULL [buf_p] or one that is not a
    buffer reference is [vmiop_error_inval]. *)
Definition vmiop_buffer_free (m : memory) (buf_p : Z)
    : outcome (vmiop_error_t * memory) :=
  match load_buffer m buf_p with
  | None => Returns (vmiop_error_inval, m)
  | Some b =>
      let n := to_uint32 (references b - 1) in
      if n =? 0
      then Returns (vmiop_success, delete buf_p m)
      else Returns (vmiop_success, <[buf_p := set_references b n]> m)
  end.

(** The address of [vmiop_buffer_free] in the program text. *)
Definition vmiop_buffer_free_p : Z := 4096.

(** The environment's own routines. *)
Definition env_text : gmap Z release_routine :=
  {[ vmiop_buffer_free_p := vmiop_buffer_free ]}.

(** Modelled from the spec: a hold on a buffer (holdIncrement), an
    increment of [references]. *)
Definition buffer_hold (m : memory) (buf_p : Z) : vmiop_error_t * memory :=
  match load_buffer m buf_p with
  | None => (vmiop_error_inval, m)
  | Some b =>
      (vmiop_success, <[buf_p := set_references b (to_uint32 (references b + 1))]> m)
  end.

(** *** Allocation *)

(** Sizes of the LP64 layout. *)
Definition sizeof_vmiop_buffer_t : Z := 56.
Definition sizeof_vmiop_buffer_element_t : Z := 16.
Definition sizeof_uint32_t : Z := 4.

(** A class is valid when it lies in the enumeration's range. *)
Definition valid_class (c : Z) : bool :=
  (vmiop_plugin_class_min <=? c) && (c <=? vmiop_plugin_class_max).

(** Offset of the data area in the single allocation: the buffer
    structure, the allocator's two [uint32_t] items, the element array. *)
Definition data_area_offset (element_count : Z) : Z :=
  sizeof_vmiop_buffer_t + 2 * sizeof_uint32_t
  + element_count * sizeof_vmiop_buffer_element_t.

Definition allocation_length (element_count data_size : Z) : Z :=
  to_uint64 (data_area_offset element_count + data_size).

Definition null_element : vmiop_buffer_element_t :=
  {| data_p := NULL; el_length := 0 |}.

(** The element array of a new buffer: the first item points to the
    total data area, the others are clear. *)
Definition initial_elements (data_area element_count data_size : Z)
    : list vmiop_buffer_element_t :=
  match Z.to_nat element_count with
  | O => []
  | S n => {| data_p := data_area; el_length := data_size |}
           :: replicate n null_element
  end.

Section BufferAlloc.

(** [vmiop_memory_alloc], the environment's allocator: the address of a
    block of the requested length, or [NULL] if the allocation fails. *)
Variable vmiop_memory_alloc : memory -> Z -> Z.

(** Modelled from the spec: the body of [vmiop_buffer_alloc], which the
    header only declares.  Zero [element_count] or an invalid class is
    [vmiop_error_inval]; no memory is [vmiop_error_resource]; [*buf_p]
    is NULL on an error.  On success the object is one allocation, the
    first element points to the total data area, the reference count
    is 1 and [release_p] is [vmiop_buffer_free].  The result is the
    error code, [*buf_p] and the memory. *)
Definition vmiop_buffer_alloc (m : memory)
    (source_class destination_class element_count data_size : Z)
    : vmiop_error_t * Z * memory :=
  let source_class := to_uint32 source_class in
  let destination_class := to_uint32 destination_class in
  let element_count := to_uint32 element_count in
  let data_size := to_uint32 data_size in
  if (element_count =? 0)
     || negb (valid_class source_class)
     || negb (valid_class destination_class)
  then (vmiop_error_inval, NULL, m)
  else
    let base :=
      vmiop_memory_alloc m (allocation_length element_count data_size) in
    if decide (base = NULL)
    then (vmiop_error_resource, NULL, m)
    else
      let b :=
        {| list_head := {| next := NULL; prev := NULL |};
           source_class := source_class;
           destination_class := destination_class;
           release_p := vmiop_buffer_free_p;
           references := 1;
           count := element_count;
           element :=
             initial_elements (base + data_area_offset element_count)
                              element_count data_size;
           discard_config := vmiop_false |} in
      (vmiop_success, base, <[base := b]> m).

End BufferAlloc.

(** The end of the allocation a buffer at address [a] lies in. *)
Definition buffer_extent (a : Z) (b : vmiop_buffer_t) : Z :=
  a + data_area_offset (count b)
  + match element b with e :: _ => el_length e | [] => 0 end.

(** A bump allocator over the addresses from [heap_base] up to
    [heap_limit]: an instance of the environment's allocator.  A new
    block starts where the last buffer's allocation ends. *)
Definition heap_base : Z := 65536.
Definition heap_limit : Z := 1048576.
Definition bump_alloc (m : memory) (len : Z) : Z :=
  let top := map_fold (fun a b acc => Z.max acc (buffer_extent a b)) heap_base m in
  if top + len <=? heap_limit then top else NULL.

(** ** Plugins and the chain *)

(** [enum vmiop_direction_e]. *)
Inductive vmiop_direction_t : Set :=
| vmiop_direction_down   (* toward devices *)
| vmiop_direction_up.    (* toward virtual machine *)

Definition direction_code (d : vmiop_direction_t) : Z :=
  match d with vmiop_direction_down => 0 | vmiop_direction_up => 1 end.

(** The fields of [struct vmiop_plugin_s] the router reads;
    [put_message] is the address of the routine that accepts buffers. *)
Record vmiop_plugin_t : Set := {
  plugin_class : Z;
  input_classes : Z;
  connect_down_allowed : vmiop_bool_t;
  connect_up_allowed : vmiop_bool_t;
  put_message : Z
}.

(** A registered plugin: the handle the registry gave it, and its
    definition object. *)
Record registration : Set := {
  handle : Z;
  plugin : vmiop_plugin_t
}.

(** A [vmiop_plugin_put_message_t]: handle, buffer reference. *)
Abbreviation put_message_routine :=
  (Z -> Z -> memory -> outcome (vmiop_error_t * memory)).

(** The state the router works on: the chain, from the plugin nearest
    the devices (first) to the one nearest the virtual machine (last);
    the buffers; and the [put_message] calls made so far, each a plugin
    handle and a buffer reference, oldest first. *)
Record environment : Type := {
  chain : list registration;
  buffers : memory;
  accepted : list (Z * Z)
}.

(** Position of the plugin a handle refers to. *)
Fixpoint find_plugin (h : Z) (l : list registration) : option nat :=
  match l with
  | [] => None
  | r :: l' =>
      if decide (handle r = h) then Some O
      else match find_plugin h l' with
           | Some i => Some (S i)
           | None => None
           end
  end.

(** The plugins beyond position [i] in a direction, nearest first. *)
Definition neighbors (d : vmiop_direction_t) (i : nat)
    (l : list registration) : list registration :=
  match d with
  | vmiop_direction_up => drop (S i) l
  | vmiop_direction_down => reverse (take i l)
  end.

(** Whether a plugin's [input_classes] contains a class: the header's
    membership test. *)
Definition accepts_class (p : vmiop_plugin_t) (c : Z) : option bool :=
  match vmiop_plugin_class_in_set (input_classes p) c with
  | Some r => Some (negb (r =? 0))
  | None => None
  end.

(** The first plugin of a list that accepts the class. *)
Fixpoint first_accepting (c : Z) (l : list registration)
    : outcome (option registration) :=
  match l with
  | [] => Returns None
  | r :: l' =>
      match accepts_class (plugin r) c with
      | None => Undef
      | Some true => Returns (Some r)
      | Some false => first_accepting c l'
      end
  end.

Section MessageRouter.

(** The [put_message] routines of the loaded plugins, by address. *)
Variable plugin_text : gmap Z put_message_routine.

(** Modelled from the spec: the body of [vmiop_deliver_message], which
    the header only declares.  Locate the caller in the registry; find
    its neighbor in the direction; with no neighbor, or no caller,
    [vmiop_error_not_found]; a NULL [buf_p] is [vmiop_error_inval];
    a neighbor whose [input_classes] does not contain the buffer's
    [source_class] is passed over; the [put_message] of the first
    that accepts is called with the buffer reference, on the caller's
    thread.  The router queues nothing, so it makes no allocation that
    could fail. *)
Definition vmiop_deliver_message (env : environment)
    (h buf_p : Z) (direction : vmiop_direction_t)
    : outcome (vmiop_error_t * environment) :=
  match find_plugin (to_uint32 h) (chain env) with
  | None => Returns (vmiop_error_not_found, env)
  | Some i =>
      match neighbors direction i (chain env) with
      | [] => Returns (vmiop_error_not_found, env)
      | candidates =>
          match load_buffer (buffers env) buf_p with
          | None => Returns (vmiop_error_inval, env)
          | Some b =>
              match first_accepting (source_class b) candidates with
              | Undef => Undef
              | Returns None => Returns (vmiop_error_not_found, env)
              | Returns (Some r) =>
                  match plugin_text !! put_message (plugin r) with
                  | None => Undef
                  | Some routine =>
                      match routine (handle r) buf_p (buffers env) with
                      | Undef => Undef
                      | Returns (e, m') =>
                          Returns (e, {| chain := chain env;
                                         buffers := m';
                                         accepted := accepted env
                                                     ++ [(handle r, buf_p)] |})
                      end
                  end
              end
          end
      end
  end.

End MessageRouter.

(** ** Locks *)

(** [typedef uint64_t vmiop_time_t]: nanoseconds from an undefined base;
    [VMIOP_TIME_NO_LIMIT] is all ones. *)
Definition VMIOP_TIME_NO_LIMIT : Z := to_uint64 (Z.lnot 0).

(** What a caller of a lock operation sees: the call returns a code, or
    the calling thread is suspended until the lock is available and, if
    [limit] is a time, no later than that time. *)
Inductive lock_call : Set :=
| Returned (e : vmiop_error_t)
| Waits (limit : option Z).

#[global] Instance lock_call_eq_dec : EqDecision lock_call.
Proof. solve_decision. Defined.

(** The lock variables, by handle: [true] when the lock is held. *)
Abbreviation lock_table := (gmap Z bool).

(** [vmiop_lock(handle, try_only)], which the header declares and
    documents and the environment implements.  From the declaration:
    success when the lock is acquired; [vmiop_error_inval] for
    [VMIOP_HANDLE_NULL]; [vmiop_error_not_found] when the handle does not
    refer to a lock variable; [vmiop_error_timeout] when [try_only] was
    true and the lock was not available; with [try_only] false the call
    waits until the lock is available. *)
Definition vmiop_lock (locks : lock_table) (h : Z) (try_only : vmiop_bool_t)
    : lock_call * lock_table :=
  let h := to_uint32 h in
  if decide (h = VMIOP_HANDLE_NULL) then (Returned vmiop_error_inval, locks)
  else
    match locks !! h with
    | None => (Returned vmiop_error_not_found, locks)
    | Some false => (Returned vmiop_success, <[h := true]> locks)
    | Some true =>
        match try_only with
        | vmiop_true => (Returned vmiop_error_timeout, locks)
        | vmiop_false => (Waits None, locks)
        end
    end.

(** The limit of a wait as the spec words it: none, or an absolute
    deadline. *)
Inductive wait_limit : Set :=
| wait_no_limit
| wait_deadline (t : Z).

(** The spec's mutex acquisition, for comparison with [vmiop_lock]:
    the caller blocks indefinitely or until an absolute deadline, and a
    deadline already in the past is a zero-wait poll.  [now] is the
    current time. *)
Definition spec_mutex_acquire (now : Z) (locks : lock_table) (h : Z)
    (limit : wait_limit) : lock_call * lock_table :=
  let h := to_uint32 h in
  if decide (h = VMIOP_HANDLE_NULL) then (Returned vmiop_error_inval, locks)
  else
    match locks !! h with
    | None => (Returned vmiop_error_not_found, locks)
    | Some false => (Returned vmiop_success, <[h := true]> locks)
    | Some true =>
        match limit with
        | wait_no_limit => (Waits None, locks)
        | wait_deadline t =>
            if t <=? now then (Returned vmiop_error_timeout, locks)
            else (Waits (Some t), locks)
        end
    end.

(** ** Migration *)

(** [vmiop_migration_stage_e]. *)
Inductive vmiop_migration_stage_e : Set :=
| vmiop_migration_none            (* device normal running state *)
| vmiop_migration_pre_copy        (* pre-copy, vCPU running *)
| vmiop_migration_stop_and_copy   (* stop, vCPU paused *)
| vmiop_migration_resume.         (* start, vCPU paused *)

Definition stage_code (s : vmiop_migration_stage_e) : Z :=
  match s with
  | vmiop_migration_none => 0
  | vmiop_migration_pre_copy => 1
  | vmiop_migration_stop_and_copy => 2
  | vmiop_migration_resume => 3
  end.

(** ** A two-plugin chain

    Plugin A (class display, accepting presentation) below plugin B
    (class presentation, accepting display), and one buffer of a single
    element and 64 bytes of data, from display to presentation. *)

Definition accept_and_hold : put_message_routine :=
  fun _ buf_p m => Returns (buffer_hold m buf_p).

Definition plugin_A_put_message : Z := 8192.
Definition plugin_B_put_message : Z := 8448.

Definition scenario_text : gmap Z put_message_routine :=
  {[ plugin_A_put_message := accept_and_hold;
     plugin_B_put_message := accept_and_hold ]}.

Definition plugin_A : vmiop_plugin_t :=
  {| plugin_class := vmiop_plugin_class_display;
     input_classes := 512;
     connect_down_allowed := vmiop_true;
     connect_up_allowed := vmiop_true;
     put_message := plugin_A_put_message |}.

Definition plugin_B : vmiop_plugin_t :=
  {| plugin_class := vmiop_plugin_class_presentation;
     input_classes := 2;
     connect_down_allowed := vmiop_true;
     connect_up_allowed := vmiop_true;
     put_message := plugin_B_put_message |}.

Definition handle_A : Z := 1.
Definition handle_B : Z := 2.

Definition scenario_alloc : vmiop_error_t * Z * memory :=
  vmiop_buffer_alloc bump_alloc ∅
    vmiop_plugin_class_display vmiop_plugin_class_presentation 1 64.

Definition scenario_buf_p : Z := snd (fst scenario_alloc).

Definition scenario_env : environment :=
  {| chain := [ {| handle := handle_A; plugin := plugin_A |};
                {| handle := handle_B; plugin := plugin_B |} ];
     buffers := snd scenario_alloc;
     accepted := [] |}.

(** A lock table with one lock variable, held. *)
Definition held_lock_handle : Z := 5.
Definition one_held_lock : lock_table := {[ held_lock_handle := true ]}.

(** ** Class sets written from masks *)

(** [~a] on a 32-bit and on a 64-bit unsigned operand. *)
Definition not_uint32 (a : Z) : Z := to_uint32 (Z.lnot a).
Definition not_uint64 (a : Z) : Z := to_uint64 (Z.lnot a).

(** A class set written as the header's macro allows for a constant:
    [vmiop_const_plugin_class_to_mask(c1) | ... | 0]. *)
Fixpoint class_set_of (classes : list Z) : option Z :=
  match classes with
  | [] => Some 0
  | c :: classes' =>
      match vmiop_const_plugin_class_to_mask c, class_set_of classes' with
      | Some mask, Some set => Some (Z.lor mask set)
      | _, _ => None
      end
  end.

(** ** Reserved values *)

(** [#define VMIOP_EMUL_ADDR_NONE (~ ((vmiop_emul_addr_t) 0))]. *)
Definition VMIOP_EMUL_ADDR_NONE : Z := not_uint64 (to_uint64 0).

(** [#define VMIOP_PAGE_NUMBER_NULL (~ ((unsigned long) 0u))]. *)
Definition VMIOP_PAGE_NUMBER_NULL : Z := not_uint64 (to_uint64 (to_uint32 0)).

(** [#define VMIOP_DISPLAY_ALL ((uint32_t) (~0u))]. *)
Definition VMIOP_DISPLAY_ALL : Z := to_uint32 (not_uint32 (to_uint32 0)).

(** ** The common message header *)

(** [#define VMIOP_MC_SIGNATURE ((u_int32_t) 0x4f494d56u)], the message
    signature (to deduce endianness), and
    [#define VMIOP_MC_VERSION ((u_int32_t) 0x00010000)]. *)
Definition VMIOP_MC_SIGNATURE : Z := to_uint32 0x4f494d56.
Definition VMIOP_MC_VERSION : Z := to_uint32 0x00010000.

(** The two orders in which the four bytes of a [uint32_t] field lie in
    memory. *)
Inductive byte_order : Set := little_endian | big_endian.

#[global] Instance byte_order_eq_dec : EqDecision byte_order.
Proof. solve_decision. Defined.

(** The bytes of a 32-bit value, least significant first. *)
Definition bytes_of_uint32 (w : Z) : list Z :=
  [ Z.land w 255;
    Z.land (Z.shiftr w 8) 255;
    Z.land (Z.shiftr w 16) 255;
    Z.land (Z.shiftr w 24) 255 ].

(** A [uint32_t] field as a machine of the given order stores it. *)
Definition store_uint32 (o : byte_order) (w : Z) : list Z :=
  match o with
  | little_endian => bytes_of_uint32 w
  | big_endian => reverse (bytes_of_uint32 w)
  end.

(** The value a machine of the given order reads from four bytes. *)
Definition load_uint32 (o : byte_order) (bs : list Z) : option Z :=
  match (match o with little_endian => bs | big_endian => reverse bs end) with
  | [b0; b1; b2; b3] =>
      Some (Z.lor b0 (Z.lor (Z.shiftl b1 8)
                            (Z.lor (Z.shiftl b2 16) (Z.shiftl b3 24))))
  | _ => None
  end.

(** ** Holders of a buffer *)

(** A holder's releases of its references, one call of
    [vmiop_buffer_release] after the other: the codes returned, in
    order, and the memory left. *)
Fixpoint release_times (text : gmap Z release_routine) (n : nat)
    (m : memory) (buf_p : Z) : outcome (list vmiop_error_t * memory) :=
  match n with
  | O => Returns ([], m)
  | S k =>
      match vmiop_buffer_release text m buf_p with
      | Undef => Undef
      | Returns (e, m') =>
          match release_times text k m' buf_p with
          | Undef => Undef
          | Returns (es, m'') => Returns (e :: es, m'')
          end
      end
  end.

(** * Properties *)

(** ** Class sets *)

Lemma to_uint32_small (z : Z) : is_uint32 z -> to_uint32 z = z.
Proof. unfold is_uint32, to_uint32. intros H. apply Z.mod_small. exact H. Qed.

Lemma to_uint32_range (z : Z) : is_uint32 (to_uint32 z).
Proof.
  unfold is_uint32, to_uint32, UINT32_WIDTH.
  apply Z.mod_pos_bound. reflexivity.
Qed.

Lemma to_uint32_idem (z : Z) : to_uint32 (to_uint32 z) = to_uint32 z.
Proof. apply to_uint32_small, to_uint32_range. Qed.

Lemma pow2_lt_uint32 (y : Z) : 0 <= y <= 31 -> is_uint32 (2 ^ y).
Proof.
  intros H. unfold is_uint32, UINT32_WIDTH. split.
  - apply Z.pow_nonneg. lia.
  - apply Z.pow_lt_mono_r; lia.
Qed.

Lemma class_is_uint32 (y : Z) : 0 <= y <= 31 -> is_uint32 y.
Proof. unfold is_uint32, UINT32_WIDTH. change (2 ^ 32) with 4294967296. lia. Qed.

(** In range the shift is defined and gives the power of two. *)
Lemma shl_uint32_one (y : Z) :
  0 <= y <= 31 -> shl_uint32 (to_uint32 1) y = Some (2 ^ y).
Proof.
  intros H. unfold shl_uint32, UINT32_WIDTH.
  replace (0 <=? y) with true by (symmetry; apply Z.leb_le; lia).
  replace (y <? 32) with true by (symmetry; apply Z.ltb_lt; lia).
  cbn [andb]. f_equal.
  change (to_uint32 1) with 1.
  rewrite Z.shiftl_1_l. apply to_uint32_small, pow2_lt_uint32, H.
Qed.

(** Out of range the shift has no result. *)
Lemma shl_uint32_wide (a y : Z) : 32 <= y -> shl_uint32 a y = None.
Proof.
  intros H. unfold shl_uint32, UINT32_WIDTH.
  replace (y <? 32) with false by (symmetry; apply Z.ltb_ge; lia).
  now rewrite andb_false_r.
Qed.

Lemma class_to_mask_pow2 (y : Z) :
  0 <= y <= 31 -> vmiop_plugin_class_to_mask y = Some (2 ^ y).
Proof.
  intros H. unfold vmiop_plugin_class_to_mask. cbv zeta.
  rewrite (to_uint32_small y) by (apply class_is_uint32, H).
  apply shl_uint32_one, H.
Qed.

(** The membership test reads bit [y] of the set. *)
Lemma class_in_set_testbit (x y : Z) :
  is_uint32 x -> 0 <= y <= 31 ->
  vmiop_plugin_class_in_set x y = Some (c_truth (Z.testbit x y)).
Proof.
  intros Hx Hy. unfold vmiop_plugin_class_in_set. cbv zeta.
  rewrite (to_uint32_small x) by exact Hx.
  rewrite (to_uint32_small y) by (apply class_is_uint32, Hy).
  rewrite class_to_mask_pow2 by exact Hy.
  f_equal. f_equal.
  destruct (Z.testbit x y) eqn:Hb.
  - apply negb_true_iff, Z.eqb_neq. intros Hz.
    assert (Z.testbit (Z.land x (2 ^ y)) y = true) as Hc.
    { rewrite Z.land_spec, Hb, Z.pow2_bits_true by lia. reflexivity. }
    rewrite Hz, Z.bits_0 in Hc. discriminate.
  - apply negb_false_iff, Z.eqb_eq. apply Z.bits_inj'. intros i Hi.
    rewrite Z.land_spec, Z.bits_0.
    destruct (Z.eq_dec i y) as [-> | Hne].
    + now rewrite Hb.
    + rewrite (Z.pow2_bits_false y i) by lia. apply andb_false_r.
Qed.



Example class_in_set_display_presentation :
  vmiop_plugin_class_in_set 514 vmiop_plugin_class_presentation = Some 1
  /\ vmiop_plugin_class_in_set 514 vmiop_plugin_class_display = Some 1
  /\ vmiop_plugin_class_in_set 514 vmiop_plugin_class_null = Some 0.
Proof. repeat split; reflexivity. Qed.

(** C9.  On every value of the class type the macro and the inline
    function give the same mask (or both none). *)
Theorem const_mask_eq_inline_mask (y : Z) :
  is_uint32 y ->
  vmiop_const_plugin_class_to_mask y = vmiop_plugin_class_to_mask y.
Proof.
  intros Hy. unfold vmiop_const_plugin_class_to_mask, vmiop_plugin_class_to_mask.
  cbv zeta. now rewrite (to_uint32_small y Hy).
Qed.

Lemma const_mask_eq_inline_mask_witness :
  is_uint32 9
  /\ vmiop_const_plugin_class_to_mask 9 = vmiop_plugin_class_to_mask 9.
Proof.
  assert (is_uint32 9) as H by (unfold is_uint32, UINT32_WIDTH; lia).
  split; [exact H | exact (const_mask_eq_inline_mask 9 H)].
Defined.

(** Outside the class type the two part: the function converts its
    argument first, the macro shifts by it as it stands. *)
Example const_mask_beyond_class_type :
  vmiop_const_plugin_class_to_mask (2 ^ 32) = None
  /\ vmiop_plugin_class_to_mask (2 ^ 32) = Some 1.
Proof. split; reflexivity. Qed.

(** C10, as the claim words it, fails at class 32: the shift is made on
    the 32-bit operand, so it has no result there; it is not a zero
    mask, and the membership test is not false but without result. *)
Lemma class_to_mask_32_not_zero :
  vmiop_plugin_class_to_mask 32 = None
  /\ vmiop_plugin_class_to_mask 32 <> Some 0
  /\ vmiop_plugin_class_in_set 1 32 = None
  /\ vmiop_plugin_class_in_set 1 32 <> Some 0.
Proof. repeat split; try reflexivity; discriminate. Qed.

(** C10, amended.  The cast to the 32-bit class-set type is applied to
    the constant 1 before the shift.  For a class [y] with
    [32 <= y < 64] the shift count reaches the operand's width: the mask
    has no defined value and neither has the membership test, for any
    class set.  For classes 0 to 31 the mask is [2^y], nonzero and within
    the type, and the defined classes, whose maximum is 9, lie there. *)
Theorem class_to_mask_defined_below_width (y : Z) :
  32 <= y < 64 ->
  vmiop_plugin_class_to_mask y = None
  /\ (forall x, vmiop_plugin_class_in_set x y = None)
  /\ (forall c, 0 <= c <= 31 ->
      vmiop_plugin_class_to_mask c = Some (2 ^ c) /\ 0 < 2 ^ c < 2 ^ 32)
  /\ (forall c, vmiop_plugin_class_min <= c <= vmiop_plugin_class_max ->
      0 <= c <= 31)
  /\ vmiop_plugin_class_max = 9.
Proof.
  intros Hy.
  assert (to_uint32 y = y) as Hu.
  { apply to_uint32_small. unfold is_uint32, UINT32_WIDTH.
    change (2 ^ 32) with 4294967296. lia. }
  assert (vmiop_plugin_class_to_mask y = None) as Hm.
  { unfold vmiop_plugin_class_to_mask. cbv zeta. rewrite Hu.
    apply shl_uint32_wide. lia. }
  split; [exact Hm |]. split; [| split; [| split]].
  - intros x. unfold vmiop_plugin_class_in_set. cbv zeta.
    rewrite Hu, Hm. reflexivity.
  - intros c Hc. split; [apply class_to_mask_pow2, Hc |].
    pose proof (pow2_lt_uint32 c Hc) as [Hlo Hhi].
    unfold UINT32_WIDTH in Hhi. split; [| exact Hhi].
    apply Z.pow_pos_nonneg; lia.
  - unfold vmiop_plugin_class_min, vmiop_plugin_class_max. lia.
  - reflexivity.
Qed.

Lemma class_to_mask_defined_below_width_witness :
  32 <= 32 < 64
  /\ vmiop_plugin_class_to_mask 32 = None
  /\ (forall x, vmiop_plugin_class_in_set x 32 = None).
Proof.
  assert (32 <= 32 < 64) as H by lia.
  split; [exact H |].
  destruct (class_to_mask_defined_below_width 32 H) as (Hm & Hs & _).
  split; [exact Hm | exact Hs].
Defined.

(** ** Error codes *)

Lemma error_of_code_error_code (e : vmiop_error_t) :
  error_of_code (error_code e) = Some e.
Proof. destruct e; reflexivity. Qed.

Lemma error_code_inj (e1 e2 : vmiop_error_t) :
  error_code e1 = error_code e2 -> e1 = e2.
Proof.
  intros H. apply (f_equal error_of_code) in H.
  rewrite !error_of_code_error_code in H. congruence.
Qed.

Lemma error_of_code_Some (z : Z) (e : vmiop_error_t) :
  error_of_code z = Some e -> error_code e = z.
Proof.
  unfold error_of_code. intros H.
  destruct z as [| p | p]; try discriminate;
    [| repeat (destruct p as [p | p |]; try discriminate)];
    injection H as <-; reflexivity.
Qed.

Lemma error_code_range (e : vmiop_error_t) : 0 <= error_code e <= 8.
Proof. destruct e; cbn; lia. Qed.

Lemma error_of_code_in_range (z : Z) :
  0 <= z <= 8 -> exists e, error_of_code z = Some e.
Proof.
  intros Hz.
  assert (z = 0 \/ z = 1 \/ z = 2 \/ z = 3 \/ z = 4 \/ z = 5
          \/ z = 6 \/ z = 7 \/ z = 8) as Hc by lia.
  repeat (destruct Hc as [-> | Hc]; [eexists; reflexivity |]).
  subst z. eexists; reflexivity.
Qed.

(** C8.  The error codes are a closed set of nine: every code lies
    between [vmiop_error_min] (0) and [vmiop_error_max] (8); the nine
    names carry the values 0 to 8 in the order success,
    invalid-argument, resource-unavailable, range, read-only, not-found,
    no-address-space, timeout, not-allowed-in-callback; distinct names
    have distinct values; every value from 0 to 8 is the code of one of
    them and no other integer is a code. *)
Theorem error_codes_closed :
  (forall e, vmiop_error_min <= error_code e <= vmiop_error_max)
  /\ vmiop_error_min = 0 /\ vmiop_error_max = 8
  /\ map error_code all_errors = [0; 1; 2; 3; 4; 5; 6; 7; 8]
  /\ length all_errors = 9%nat
  /\ (forall e, e ∈ all_errors)
  /\ NoDup all_errors
  /\ (forall e1 e2, error_code e1 = error_code e2 -> e1 = e2)
  /\ (forall z, (exists e, error_code e = z) <-> 0 <= z <= 8)
  /\ error_code vmiop_error_none = error_code vmiop_success.
Proof.
  split; [exact error_code_range |].
  do 4 (split; [reflexivity |]).
  split; [intros e; unfold all_errors; destruct e; set_solver |].
  split; [apply (bool_decide_unpack _); vm_compute; exact I |].
  split; [exact error_code_inj |].
  split; [| reflexivity].
  intros z. split.
  - intros [e <-]. apply error_code_range.
  - intros Hz. destruct (error_of_code_in_range z Hz) as [e He].
    exists e. apply error_of_code_Some, He.
Qed.

(** ** Buffer release *)

(** C1.  [vmiop_buffer_release] reads [buf_p->release_p] before anything
    else: on a NULL reference the call is an access through a null
    pointer, whatever the program text and the memory, and no error code
    is returned. *)
Theorem buffer_release_null_undefined
    (text : gmap Z release_routine) (m : memory) :
  vmiop_buffer_release text m NULL = Undef
  /\ vmiop_buffer_release text m NULL <> Returns (vmiop_error_inval, m).
Proof.
  assert (vmiop_buffer_release text m NULL = Undef) as H.
  { unfold vmiop_buffer_release, load_buffer.
    destruct (decide (NULL = NULL)) as [_ | Hne]; [reflexivity | congruence]. }
  split; [exact H | rewrite H; discriminate].
Qed.

(** The same holds of a reference to no buffer. *)
Lemma buffer_release_foreign_undefined
    (text : gmap Z release_routine) (m : memory) (buf_p : Z) :
  m !! buf_p = None -> vmiop_buffer_release text m buf_p = Undef.
Proof.
  intros H. unfold vmiop_buffer_release, load_buffer.
  destruct (decide (buf_p = NULL)); [reflexivity | now rewrite H].
Qed.

(** On a buffer whose [release_p] is a routine of the program, the call
    is that routine's. *)
Lemma buffer_release_dispatch
    (text : gmap Z release_routine) (m : memory) (buf_p : Z)
    (b : vmiop_buffer_t) (routine : release_routine) :
  load_buffer m buf_p = Some b -> text !! release_p b = Some routine ->
  vmiop_buffer_release text m buf_p = routine m buf_p.
Proof.
  intros Hb Hr. unfold vmiop_buffer_release. rewrite Hb. cbv beta iota.
  now rewrite Hr.
Qed.

(** The release routine the allocator attaches does report a NULL
    reference. *)
Lemma buffer_free_null (m : memory) :
  vmiop_buffer_free m NULL = Returns (vmiop_error_inval, m).
Proof. reflexivity. Qed.

(** ** Message delivery *)

Lemma find_plugin_lt (h : Z) (l : list registration) (i : nat) :
  find_plugin h l = Some i -> (i < length l)%nat.
Proof.
  revert i. induction l as [| r l IH]; intros i; cbn.
  - discriminate.
  - destruct (decide (handle r = h)).
    + intros [= <-]. lia.
    + destruct (find_plugin h l) as [j |]; [| discriminate].
      intros [= <-]. specialize (IH j eq_refl). lia.
Qed.

Lemma find_plugin_handle (h : Z) (l : list registration) (i : nat) :
  find_plugin h l = Some i -> exists r, l !! i = Some r /\ handle r = h.
Proof.
  revert i. induction l as [| r l IH]; intros i; cbn.
  - discriminate.
  - destruct (decide (handle r = h)) as [Heq | Hne].
    + intros [= <-]. exists r. split; [reflexivity | exact Heq].
    + destruct (find_plugin h l) as [j |]; [| discriminate].
      intros [= <-]. exact (IH j eq_refl).
Qed.

Lemma find_plugin_None (h : Z) (l : list registration) :
  find_plugin h l = None <-> forall r, r ∈ l -> handle r <> h.
Proof.
  induction l as [| r l IH]; cbn.
  - split; [intros _ r Hr; inversion Hr | reflexivity].
  - destruct (decide (handle r = h)) as [Heq | Hne].
    + split; [discriminate |]. intros H. exfalso.
      apply (H r); [left | exact Heq].
    + destruct (find_plugin h l) as [j |].
      * split; [discriminate |]. intros H. exfalso.
        assert (Some j = None) as Hj; [| discriminate Hj].
        apply IH. intros r' Hr'. apply H. now right.
      * split; [| reflexivity]. intros _ r' Hr'.
        apply elem_of_cons in Hr' as [-> | Hr']; [exact Hne |].
        destruct IH as [IH _]. now apply IH.
Qed.

(** The caller has no neighbor exactly at the bottom going down and at
    the top going up. *)
Lemma neighbors_nil (d : vmiop_direction_t) (i : nat) (l : list registration) :
  (i < length l)%nat ->
  neighbors d i l = []
  <-> (d = vmiop_direction_down /\ i = O)
      \/ (d = vmiop_direction_up /\ S i = length l).
Proof.
  intros Hi. destruct d; cbn.
  - split.
    + intros H. left. split; [reflexivity |].
      apply (f_equal length) in H.
      rewrite length_reverse, length_take in H. cbn in H. lia.
    + intros [[_ ->] | [Hd _]]; [reflexivity | discriminate].
  - split.
    + intros H. right. split; [reflexivity |].
      apply (f_equal length) in H. rewrite length_drop in H. cbn in H. lia.
    + intros [[Hd _] | [_ Htop]]; [discriminate |].
      rewrite Htop. apply drop_all.
Qed.

(** C4.  A delivery whose caller handle matches no registered plugin, or
    whose caller is at the bottom of the chain for downstream or at the
    top for upstream, returns not-found and leaves the environment as it
    was: the chain, every buffer with its reference count, and the list
    of [put_message] calls. *)
Theorem deliver_without_neighbor_not_found
    (plugin_text : gmap Z put_message_routine) (env : environment)
    (h buf_p : Z) (d : vmiop_direction_t) :
  find_plugin (to_uint32 h) (chain env) = None
  \/ (d = vmiop_direction_down
      /\ find_plugin (to_uint32 h) (chain env) = Some O)
  \/ (d = vmiop_direction_up
      /\ exists i, find_plugin (to_uint32 h) (chain env) = Some i
                   /\ S i = length (chain env)) ->
  vmiop_deliver_message plugin_text env h buf_p d
  = Returns (vmiop_error_not_found, env).
Proof.
  unfold vmiop_deliver_message.
  intros [Hnone | [[-> Hbot] | [-> (i & Hi & Htop)]]].
  - now rewrite Hnone.
  - rewrite Hbot. reflexivity.
  - rewrite Hi. cbn [neighbors]. rewrite Htop, drop_all. reflexivity.
Qed.

Lemma deliver_without_neighbor_not_found_witness :
  find_plugin (to_uint32 handle_A) (chain scenario_env) = Some O
  /\ vmiop_deliver_message scenario_text scenario_env
       handle_A scenario_buf_p vmiop_direction_down
     = Returns (vmiop_error_not_found, scenario_env).
Proof.
  assert (find_plugin (to_uint32 handle_A) (chain scenario_env) = Some O)
    as H by reflexivity.
  split; [exact H |].
  apply deliver_without_neighbor_not_found.
  right. left. split; [reflexivity | exact H].
Defined.

(** In the same chain, A's delivery upstream reaches B: its
    [put_message] is called once, with the buffer, and B's hold shows
    in the reference count. *)
Example deliver_upstream_reaches_B :
  exists env',
    vmiop_deliver_message scenario_text scenario_env
      handle_A scenario_buf_p vmiop_direction_up
    = Returns (vmiop_success, env')
    /\ accepted env' = [(handle_B, scenario_buf_p)]
    /\ (references <$> load_buffer (buffers env') scenario_buf_p) = Some 2
    /\ (references <$> load_buffer (buffers scenario_env) scenario_buf_p) = Some 1.
Proof.
  eexists. split; [vm_compute; reflexivity |].
  repeat split; vm_compute; reflexivity.
Qed.

(** A handle that is not registered. *)
Example deliver_unknown_handle :
  vmiop_deliver_message scenario_text scenario_env
    7 scenario_buf_p vmiop_direction_up
  = Returns (vmiop_error_not_found, scenario_env).
Proof. vm_compute. reflexivity. Qed.

(** ** Buffer allocation *)

Lemma allocation_length_exact (element_count data_size : Z) :
  is_uint32 element_count -> is_uint32 data_size ->
  allocation_length element_count data_size
  = data_area_offset element_count + data_size.
Proof.
  unfold is_uint32, UINT32_WIDTH, allocation_length, to_uint64, UINT64_WIDTH,
    data_area_offset, sizeof_vmiop_buffer_t, sizeof_uint32_t,
    sizeof_vmiop_buffer_element_t.
  change (2 ^ 32) with 4294967296. change (2 ^ 64) with 18446744073709551616.
  intros He Hd. apply Z.mod_small. lia.
Qed.

Lemma initial_elements_first (data_area element_count data_size : Z) :
  1 <= element_count ->
  initial_elements data_area element_count data_size !! O
  = Some {| data_p := data_area; el_length := data_size |}.
Proof.
  intros H. unfold initial_elements.
  destruct (Z.to_nat element_count) eqn:E; [lia | reflexivity].
Qed.

Lemma initial_elements_length (data_area element_count data_size : Z) :
  0 <= element_count ->
  Z.of_nat (length (initial_elements data_area element_count data_size))
  = element_count.
Proof.
  intros H. unfold initial_elements.
  destruct (Z.to_nat element_count) eqn:E; cbn [length].
  - lia.
  - rewrite length_replicate. lia.
Qed.

Lemma load_buffer_insert (m : memory) (p : Z) (b : vmiop_buffer_t) :
  p <> NULL -> load_buffer (<[p := b]> m) p = Some b.
Proof.
  intros H. unfold load_buffer.
  destruct (decide (p = NULL)); [contradiction | apply lookup_insert_eq].
Qed.

(** C7.  Allocation of a buffer.  With a zero element count the call
    fails with invalid-argument; with valid arguments and no backing
    storage it fails with resource-unavailable; both leave a NULL
    reference and the memory as it was.  When it succeeds, the element
    count is at least 1, the reference count of the new buffer is 1, its
    release routine is [vmiop_buffer_free], so that a release of the
    buffer is a call of that routine, and with a data size above zero
    the first element points to the data area, has the whole data size
    as its length and ends where the allocation ends.  A caller may
    store another routine in [release_p]: a release is then a call of
    that one. *)
Theorem buffer_alloc_contract
    (alloc : memory -> Z -> Z) (m : memory)
    (src dst element_count data_size : Z) :
  is_uint32 src -> is_uint32 dst ->
  is_uint32 element_count -> is_uint32 data_size ->
  (element_count = 0 ->
   vmiop_buffer_alloc alloc m src dst element_count data_size
   = (vmiop_error_inval, NULL, m))
  /\ (1 <= element_count ->
      valid_class src = true -> valid_class dst = true ->
      alloc m (allocation_length element_count data_size) = NULL ->
      vmiop_buffer_alloc alloc m src dst element_count data_size
      = (vmiop_error_resource, NULL, m))
  /\ (forall buf_p m',
      vmiop_buffer_alloc alloc m src dst element_count data_size
      = (vmiop_success, buf_p, m') ->
      1 <= element_count
      /\ exists b,
          load_buffer m' buf_p = Some b
          /\ references b = 1
          /\ count b = element_count
          /\ source_class b = src /\ destination_class b = dst
          /\ release_p b = vmiop_buffer_free_p
          /\ vmiop_buffer_release env_text m' buf_p
             = vmiop_buffer_free m' buf_p
          /\ (0 < data_size ->
              element b !! O
              = Some {| data_p := buf_p + data_area_offset element_count;
                        el_length := data_size |}
              /\ buf_p + data_area_offset element_count + data_size
                 = buf_p + allocation_length element_count data_size)
          /\ (forall (text : gmap Z release_routine) (f : Z)
                     (routine : release_routine),
              text !! f = Some routine ->
              vmiop_buffer_release text
                (<[buf_p := set_release_p b f]> m') buf_p
              = routine (<[buf_p := set_release_p b f]> m') buf_p)).
Proof.
  intros Hs Hd He Hz. unfold vmiop_buffer_alloc. cbv zeta.
  rewrite (to_uint32_small src Hs), (to_uint32_small dst Hd),
    (to_uint32_small element_count He), (to_uint32_small data_size Hz).
  split; [| split].
  - intros ->. reflexivity.
  - intros Hc Hvs Hvd Hnull.
    replace (element_count =? 0) with false by (symmetry; apply Z.eqb_neq; lia).
    rewrite Hvs, Hvd, Hnull. cbn.
    destruct (decide (NULL = NULL)); [reflexivity | contradiction].
  - intros buf_p m'.
    destruct ((element_count =? 0) || negb (valid_class src)
              || negb (valid_class dst)) eqn:Hargs; [discriminate |].
    apply orb_false_iff in Hargs as [Hargs _].
    apply orb_false_iff in Hargs as [Hcount _].
    apply Z.eqb_neq in Hcount.
    assert (1 <= element_count) as Hone by (unfold is_uint32 in He; lia).
    destruct (decide (alloc m (allocation_length element_count data_size) = NULL))
      as [| Hbase]; [discriminate |].
    intros [= <- <-]. split; [exact Hone |].
    eexists. split; [apply load_buffer_insert, Hbase |].
    cbn [references count source_class destination_class release_p element].
    do 5 (split; [reflexivity |]).
    split; [| split].
    + erewrite buffer_release_dispatch;
        [reflexivity | apply load_buffer_insert, Hbase | reflexivity].
    + intros _. split; [apply initial_elements_first, Hone |].
      rewrite allocation_length_exact by assumption. lia.
    + intros text f routine Hf.
      eapply buffer_release_dispatch; [apply load_buffer_insert, Hbase |].
      exact Hf.
Qed.

(** One element and 64 bytes of data, from display to presentation, in
    an empty memory. *)
Lemma buffer_alloc_contract_witness :
  (is_uint32 1 /\ is_uint32 9 /\ is_uint32 1 /\ is_uint32 64)
  /\ scenario_alloc = (vmiop_success, heap_base, snd scenario_alloc)
  /\ exists b,
       load_buffer (snd scenario_alloc) heap_base = Some b
       /\ references b = 1
       /\ release_p b = vmiop_buffer_free_p
       /\ element b !! O
          = Some {| data_p := heap_base + 80; el_length := 64 |}.
Proof.
  assert (is_uint32 1 /\ is_uint32 9 /\ is_uint32 1 /\ is_uint32 64)
    as Hty by (unfold is_uint32, UINT32_WIDTH; lia).
  assert (scenario_alloc = (vmiop_success, heap_base, snd scenario_alloc))
    as Hrun by (vm_compute; reflexivity).
  split; [exact Hty |]. split; [exact Hrun |].
  destruct Hty as (H1 & H9 & _ & H64).
  destruct (buffer_alloc_contract bump_alloc ∅ 1 9 1 64 H1 H9 H1 H64)
    as (_ & _ & Hok).
  destruct (Hok heap_base (snd scenario_alloc) Hrun)
    as (_ & b & Hb & Hrefs & _ & _ & _ & Hrel & _ & Hel & _).
  exists b. split; [exact Hb |]. split; [exact Hrefs |].
  split; [exact Hrel |].
  destruct Hel as [Hel _]; [lia | exact Hel].
Defined.

(** After a second holder's hold and release the buffer is still there,
    with one reference and its element of 64 bytes; the release of the
    last reference frees it. *)
Example hold_release_scenario :
  let m0 := snd scenario_alloc in
  let m1 := snd (buffer_hold m0 heap_base) in
  (references <$> load_buffer m1 heap_base) = Some 2
  /\ exists m2,
       vmiop_buffer_release env_text m1 heap_base = Returns (vmiop_success, m2)
       /\ (references <$> load_buffer m2 heap_base) = Some 1
       /\ ((fun b => el_length <$> element b !! O) <$> load_buffer m2 heap_base)
          = Some (Some 64)
       /\ exists m3,
            vmiop_buffer_release env_text m2 heap_base
            = Returns (vmiop_success, m3)
            /\ load_buffer m3 heap_base = None.
Proof.
  cbv zeta. split; [vm_compute; reflexivity |].
  eexists. split; [vm_compute; reflexivity |].
  split; [vm_compute; reflexivity |]. split; [vm_compute; reflexivity |].
  eexists. split; vm_compute; reflexivity.
Qed.

(** ** Locks *)

(** On a held lock the spec's acquisition has three outcomes, by the
    limit of the wait. *)
Lemma spec_held_lock_outcomes :
  fst (spec_mutex_acquire 10 one_held_lock held_lock_handle wait_no_limit)
  = Waits None
  /\ fst (spec_mutex_acquire 10 one_held_lock held_lock_handle (wait_deadline 5))
     = Returned vmiop_error_timeout
  /\ fst (spec_mutex_acquire 10 one_held_lock held_lock_handle (wait_deadline 20))
     = Waits (Some 20).
Proof. repeat split; reflexivity. Qed.

(** C6, as the claim words it, fails: with the lock held, the spec's
    acquisition under a deadline still ahead (20, at time 10) waits until
    that time at the latest; [vmiop_lock] has no argument for a time, and
    neither value of [try_only] gives that wait: one waits without limit,
    the other does not wait.  Nor could any routine of [vmiop_lock]'s
    parameters: the spec tells three limits apart (none, past, ahead),
    and [try_only] has two values. *)
Lemma lock_has_no_deadline :
  fst (spec_mutex_acquire 10 one_held_lock held_lock_handle (wait_deadline 20))
  = Waits (Some 20)
  /\ fst (vmiop_lock one_held_lock held_lock_handle vmiop_false) = Waits None
  /\ fst (vmiop_lock one_held_lock held_lock_handle vmiop_true)
     = Returned vmiop_error_timeout
  /\ (forall try_only,
      fst (vmiop_lock one_held_lock held_lock_handle try_only)
      <> fst (spec_mutex_acquire 10 one_held_lock held_lock_handle
                (wait_deadline 20)))
  /\ (forall lock : lock_table -> Z -> vmiop_bool_t -> lock_call * lock_table,
      exists limit, forall try_only,
        fst (lock one_held_lock held_lock_handle try_only)
        <> fst (spec_mutex_acquire 10 one_held_lock held_lock_handle limit)).
Proof.
  split; [reflexivity |]. split; [reflexivity |]. split; [reflexivity |].
  split; [intros [|]; vm_compute; discriminate |].
  intros lock.
  pose proof (spec_held_lock_outcomes) as (Hnone & Hpast & Hahead).
  remember (fst (lock one_held_lock held_lock_handle vmiop_false)) as a eqn:Ea.
  remember (fst (lock one_held_lock held_lock_handle vmiop_true)) as b eqn:Eb.
  destruct (decide (a = Waits None)); destruct (decide (b = Waits None));
    destruct (decide (a = Returned vmiop_error_timeout));
    destruct (decide (b = Returned vmiop_error_timeout));
    first
      [ solve [ exists wait_no_limit; rewrite Hnone;
                intros [|]; rewrite <- ?Ea, <- ?Eb; congruence ]
      | solve [ exists (wait_deadline 5); rewrite Hpast;
                intros [|]; rewrite <- ?Ea, <- ?Eb; congruence ]
      | solve [ exists (wait_deadline 20); rewrite Hahead;
                intros [|]; rewrite <- ?Ea, <- ?Eb; congruence ] ].
Qed.

(** C6, amended.  A call of [vmiop_lock] carries a handle and the
    [try_only] flag and no time.  With [try_only] false the caller waits
    until the lock is available, without limit; with [try_only] true the
    call is a zero-wait poll, which returns timeout if the lock is not
    available and leaves the lock as it was: what the spec's acquisition
    does under a deadline already in the past.  A free lock is acquired
    either way, and no call waits up to a time. *)
Theorem lock_waits_or_polls
    (locks : lock_table) (h : Z) (try_only : vmiop_bool_t) :
  (forall t, fst (vmiop_lock locks h try_only) <> Waits (Some t))
  /\ (forall now,
      vmiop_lock locks h vmiop_false
      = spec_mutex_acquire now locks h wait_no_limit)
  /\ (forall now t, t <= now ->
      vmiop_lock locks h vmiop_true
      = spec_mutex_acquire now locks h (wait_deadline t))
  /\ (to_uint32 h <> VMIOP_HANDLE_NULL ->
      locks !! to_uint32 h = Some true ->
      vmiop_lock locks h vmiop_true = (Returned vmiop_error_timeout, locks)
      /\ vmiop_lock locks h vmiop_false = (Waits None, locks))
  /\ (to_uint32 h <> VMIOP_HANDLE_NULL ->
      locks !! to_uint32 h = Some false ->
      vmiop_lock locks h try_only
      = (Returned vmiop_success, <[to_uint32 h := true]> locks)).
Proof.
  unfold vmiop_lock, spec_mutex_acquire. cbv zeta.
  split; [| split; [| split; [| split]]].
  - intros t.
    destruct (decide (to_uint32 h = VMIOP_HANDLE_NULL)); [discriminate |].
    destruct (locks !! to_uint32 h) as [[|] |]; try discriminate.
    destruct try_only; discriminate.
  - intros now. reflexivity.
  - intros now t Ht.
    replace (t <=? now) with true by (symmetry; apply Z.leb_le, Ht).
    reflexivity.
  - intros Hh Hheld.
    destruct (decide (to_uint32 h = VMIOP_HANDLE_NULL)); [contradiction |].
    rewrite Hheld. split; reflexivity.
  - intros Hh Hfree.
    destruct (decide (to_uint32 h = VMIOP_HANDLE_NULL)); [contradiction |].
    rewrite Hfree. reflexivity.
Qed.

Lemma lock_waits_or_polls_witness :
  vmiop_lock one_held_lock held_lock_handle vmiop_true
  = (Returned vmiop_error_timeout, one_held_lock)
  /\ vmiop_lock one_held_lock held_lock_handle vmiop_false
     = (Waits None, one_held_lock).
Proof.
  destruct (lock_waits_or_polls one_held_lock held_lock_handle vmiop_true)
    as (_ & _ & _ & Hheld & _).
  apply Hheld.
  - vm_compute. discriminate.
  - reflexivity.
Defined.

(** * Further properties of the header's code *)

(** ** Class sets: domain, union, intersection, removal *)

Lemma to_uint32_testbit_low (x i : Z) :
  0 <= i <= 31 -> Z.testbit (to_uint32 x) i = Z.testbit x i.
Proof.
  intros Hi. unfold to_uint32, UINT32_WIDTH.
  apply Z.mod_pow2_bits_low. lia.
Qed.

Lemma class_in_set_converts (x y : Z) :
  vmiop_plugin_class_in_set x y
  = vmiop_plugin_class_in_set (to_uint32 x) (to_uint32 y).
Proof.
  unfold vmiop_plugin_class_in_set. cbv zeta. now rewrite !to_uint32_idem.
Qed.

(** The membership test reads bit [y] of the set, whatever lies above
    the set's 32 bits. *)
Lemma class_in_set_bit (x y : Z) :
  0 <= y <= 31 ->
  vmiop_plugin_class_in_set x y = Some (c_truth (Z.testbit x y)).
Proof.
  intros Hy. rewrite class_in_set_converts.
  rewrite (to_uint32_small y) by (apply class_is_uint32, Hy).
  rewrite class_in_set_testbit by (auto using to_uint32_range).
  now rewrite to_uint32_testbit_low.
Qed.

Lemma c_truth_orb (a b : bool) : c_truth (a || b) = Z.max (c_truth a) (c_truth b).
Proof. destruct a, b; reflexivity. Qed.

Lemma c_truth_andb (a b : bool) : c_truth (a && b) = Z.min (c_truth a) (c_truth b).
Proof. destruct a, b; reflexivity. Qed.

(** Membership in the union ([|]) of two class sets is the logical or
    of the memberships, and in their intersection ([&]) the logical and:
    as C integers, the maximum and the minimum of the two results. *)
Theorem class_in_set_union_inter (x x' y : Z) :
  0 <= y <= 31 ->
  exists a b,
    vmiop_plugin_class_in_set x y = Some a
    /\ vmiop_plugin_class_in_set x' y = Some b
    /\ (a = 0 \/ a = 1) /\ (b = 0 \/ b = 1)
    /\ vmiop_plugin_class_in_set (Z.lor x x') y = Some (Z.max a b)
    /\ vmiop_plugin_class_in_set (Z.land x x') y = Some (Z.min a b).
Proof.
  intros Hy.
  exists (c_truth (Z.testbit x y)), (c_truth (Z.testbit x' y)).
  rewrite !class_in_set_bit by exact Hy.
  rewrite Z.lor_spec, Z.land_spec, c_truth_orb, c_truth_andb.
  repeat split; try reflexivity.
  - destruct (Z.testbit x y); [right | left]; reflexivity.
  - destruct (Z.testbit x' y); [right | left]; reflexivity.
Qed.

Lemma class_in_set_union_inter_witness :
  0 <= 9 <= 31
  /\ exists a b,
       vmiop_plugin_class_in_set 2 9 = Some a
       /\ vmiop_plugin_class_in_set 512 9 = Some b
       /\ vmiop_plugin_class_in_set (Z.lor 2 512) 9 = Some (Z.max a b)
       /\ vmiop_plugin_class_in_set (Z.land 2 512) 9 = Some (Z.min a b).
Proof.
  assert (0 <= 9 <= 31) as H by lia. split; [exact H |].
  destruct (class_in_set_union_inter 2 512 9 H)
    as (a & b & Ha & Hb & _ & _ & Hor & Hand).
  exists a, b. repeat split; assumption.
Defined.

Lemma lor_uint32 (a b : Z) : is_uint32 a -> is_uint32 b -> is_uint32 (Z.lor a b).
Proof.
  unfold is_uint32, UINT32_WIDTH. intros [Ha0 Ha] [Hb0 Hb].
  assert (0 <= Z.lor a b) as H0 by (apply Z.lor_nonneg; split; assumption).
  split; [exact H0 |].
  destruct (Z.eq_dec (Z.lor a b) 0) as [-> | Hnz]; [reflexivity |].
  apply Z.log2_lt_pow2; [lia |].
  rewrite Z.log2_lor by assumption.
  apply Z.max_lub_lt.
  - destruct (Z.eq_dec a 0) as [-> | Hane]; [cbn; lia |].
    apply Z.log2_lt_pow2; lia.
  - destruct (Z.eq_dec b 0) as [-> | Hbne]; [cbn; lia |].
    apply Z.log2_lt_pow2; lia.
Qed.

Lemma const_mask_pow2 (c : Z) :
  0 <= c <= 31 -> vmiop_const_plugin_class_to_mask c = Some (2 ^ c).
Proof. apply shl_uint32_one. Qed.

(** A class set written as an or of the masks of classes in [0, 31] is a
    value of the class-set type and holds exactly the classes written:
    the membership test answers 1 for a class of the list and 0 for any
    other class of the range; the empty list gives the empty set. *)
Theorem class_set_of_members (classes : list Z) :
  Forall (fun c => 0 <= c <= 31) classes ->
  exists set,
    class_set_of classes = Some set
    /\ is_uint32 set
    /\ forall z, 0 <= z <= 31 ->
         vmiop_plugin_class_in_set set z
         = Some (c_truth (bool_decide (z ∈ classes))).
Proof.
  induction 1 as [| c classes Hc _ (set & Hset & Hty & Hmem)]; cbn [class_set_of].
  - exists 0. split; [reflexivity |].
    split; [unfold is_uint32, UINT32_WIDTH; lia |].
    intros z Hz. rewrite class_in_set_bit, Z.bits_0 by exact Hz.
    rewrite bool_decide_eq_false_2; [reflexivity | apply not_elem_of_nil].
  - rewrite (const_mask_pow2 c Hc), Hset. exists (Z.lor (2 ^ c) set).
    split; [reflexivity |].
    split; [apply lor_uint32; [apply pow2_lt_uint32, Hc | exact Hty] |].
    intros z Hz. specialize (Hmem z Hz).
    rewrite class_in_set_bit in Hmem |- * by exact Hz.
    injection Hmem as Hmem.
    rewrite Z.lor_spec, Z.pow2_bits_eqb by lia.
    f_equal.
    destruct (Z.eqb_spec c z) as [-> | Hne].
    + cbn [orb]. rewrite bool_decide_eq_true_2; [reflexivity | left].
    + cbn [orb]. rewrite Hmem. f_equal.
      apply bool_decide_ext. rewrite elem_of_cons. intuition congruence.
Qed.

(** The input classes of a plugin that accepts display and presentation
    buffers. *)
Lemma class_set_of_members_witness :
  Forall (fun c => 0 <= c <= 31)
    [vmiop_plugin_class_display; vmiop_plugin_class_presentation]
  /\ class_set_of [vmiop_plugin_class_display; vmiop_plugin_class_presentation]
     = Some 514
  /\ vmiop_plugin_class_in_set 514 vmiop_plugin_class_presentation = Some 1
  /\ vmiop_plugin_class_in_set 514 vmiop_plugin_class_null = Some 0.
Proof.
  assert (Forall (fun c => 0 <= c <= 31)
            [vmiop_plugin_class_display; vmiop_plugin_class_presentation]) as H
    by (repeat constructor;
        unfold vmiop_plugin_class_display, vmiop_plugin_class_presentation; lia).
  split; [exact H |].
  destruct (class_set_of_members _ H) as (set & Hset & _ & Hmem).
  assert (set = 514) as -> by (vm_compute in Hset; congruence).
  split; [exact Hset |]. split.
  - rewrite (Hmem vmiop_plugin_class_presentation); [reflexivity |].
    unfold vmiop_plugin_class_presentation; lia.
  - rewrite (Hmem vmiop_plugin_class_null); [reflexivity |].
    unfold vmiop_plugin_class_null; lia.
Defined.

(** Taking a class out of a set, [x & ~mask]: the class is no longer a
    member, and every other class of the range is a member exactly if
    it was. *)
Theorem class_in_set_remove (x y : Z) :
  0 <= y <= 31 ->
  exists mask,
    vmiop_plugin_class_to_mask y = Some mask
    /\ vmiop_plugin_class_in_set (Z.land x (not_uint32 mask)) y = Some 0
    /\ forall z, 0 <= z <= 31 -> z <> y ->
         vmiop_plugin_class_in_set (Z.land x (not_uint32 mask)) z
         = vmiop_plugin_class_in_set x z.
Proof.
  intros Hy. exists (2 ^ y). split; [apply class_to_mask_pow2, Hy |].
  assert (forall z, 0 <= z <= 31 ->
            Z.testbit (Z.land x (not_uint32 (2 ^ y))) z
            = Z.testbit x z && negb (y =? z)) as Hbit.
  { intros z Hz. unfold not_uint32.
    rewrite Z.land_spec, to_uint32_testbit_low by exact Hz.
    rewrite Z.lnot_spec, Z.pow2_bits_eqb by lia. reflexivity. }
  split.
  - rewrite class_in_set_bit, Hbit by exact Hy.
    rewrite Z.eqb_refl, andb_false_r. reflexivity.
  - intros z Hz Hne. rewrite !class_in_set_bit, Hbit by exact Hz.
    replace (y =? z) with false by (symmetry; apply Z.eqb_neq; congruence).
    now rewrite andb_true_r.
Qed.

Lemma class_in_set_remove_witness :
  0 <= 9 <= 31
  /\ vmiop_plugin_class_in_set (Z.land 514 (not_uint32 512)) 9 = Some 0
  /\ vmiop_plugin_class_in_set (Z.land 514 (not_uint32 512)) 1 = Some 1.
Proof.
  assert (0 <= 9 <= 31) as H by lia. split; [exact H |].
  destruct (class_in_set_remove 514 9 H) as (mask & Hmask & Hout & Hrest).
  assert (mask = 512) as -> by (vm_compute in Hmask; congruence).
  split; [exact Hout |].
  rewrite (Hrest 1); [reflexivity | lia | lia].
Defined.

Lemma class_to_mask_total (y : Z) :
  vmiop_plugin_class_to_mask y
  = (if to_uint32 y <? 32 then Some (2 ^ to_uint32 y) else None).
Proof.
  pose proof (to_uint32_range y) as [Hlo _].
  unfold vmiop_plugin_class_to_mask. cbv zeta.
  destruct (Z.ltb_spec (to_uint32 y) 32).
  - apply shl_uint32_one. lia.
  - apply shl_uint32_wide. lia.
Qed.

(** The whole domain of the conversion and of the test, on any integer
    argument.  The argument is first converted to the 32-bit class type;
    below 32 the mask is that power of two and the test is 0 or 1, the
    bit of the set; from 32 on neither has a defined result, whatever
    the set.  An argument beyond the class type is thus taken modulo
    [2^32] without notice. *)
Theorem class_to_mask_domain (x y : Z) :
  vmiop_plugin_class_to_mask y
  = (if to_uint32 y <? 32 then Some (2 ^ to_uint32 y) else None)
  /\ vmiop_plugin_class_in_set x y
     = (if to_uint32 y <? 32
        then Some (c_truth (Z.testbit x (to_uint32 y)))
        else None)
  /\ (vmiop_plugin_class_in_set x y = Some 0
      \/ vmiop_plugin_class_in_set x y = Some 1
      \/ vmiop_plugin_class_in_set x y = None)
  /\ vmiop_plugin_class_in_set x (y + 2 ^ 32) = vmiop_plugin_class_in_set x y.
Proof.
  pose proof (to_uint32_range y) as [Hlo _].
  pose proof (class_to_mask_total y) as Hm.
  assert (vmiop_plugin_class_in_set x y
          = (if to_uint32 y <? 32
             then Some (c_truth (Z.testbit x (to_uint32 y)))
             else None)) as Hs.
  { destruct (Z.ltb_spec (to_uint32 y) 32) as [Hlt | Hge].
    - rewrite class_in_set_converts, class_in_set_bit by lia.
      now rewrite to_uint32_testbit_low by lia.
    - unfold vmiop_plugin_class_in_set. cbv zeta.
      unfold vmiop_plugin_class_to_mask. cbv zeta. rewrite to_uint32_idem.
      rewrite shl_uint32_wide by lia. reflexivity. }
  split; [exact Hm |]. split; [exact Hs |]. split.
  - rewrite Hs. destruct (to_uint32 y <? 32); [| right; right; reflexivity].
    destruct (Z.testbit x (to_uint32 y)); [right; left | left]; reflexivity.
  - rewrite (class_in_set_converts x (y + 2 ^ 32)), (class_in_set_converts x y).
    f_equal. unfold to_uint32, UINT32_WIDTH.
    rewrite <- (Z.mul_1_l (2 ^ 32)) at 1. apply Z.mod_add. discriminate.
Qed.

(** The macro against the function on any integer.  The macro shifts by
    its argument as it stands: it has a result exactly for
    [0 <= y < 32], and there the function gives the same mask.  The two
    part only on an argument outside the class type that wraps into
    [0, 31]: the macro has no result, the function the mask of the
    wrapped class. *)
Theorem const_mask_refined_by_inline (y : Z) :
  vmiop_const_plugin_class_to_mask y
  = (if (0 <=? y) && (y <? 32) then Some (2 ^ y) else None)
  /\ (forall mask, vmiop_const_plugin_class_to_mask y = Some mask ->
      vmiop_plugin_class_to_mask y = Some mask)
  /\ (vmiop_const_plugin_class_to_mask y <> vmiop_plugin_class_to_mask y
      <-> (y < 0 \/ 2 ^ 32 <= y) /\ to_uint32 y < 32).
Proof.
  assert (vmiop_const_plugin_class_to_mask y
          = (if (0 <=? y) && (y <? 32) then Some (2 ^ y) else None)) as Hc.
  { unfold vmiop_const_plugin_class_to_mask.
    destruct (Z.leb_spec 0 y); destruct (Z.ltb_spec y 32); cbn [andb].
    - apply shl_uint32_one. lia.
    - apply shl_uint32_wide. lia.
    - unfold shl_uint32. replace (0 <=? y) with false; [reflexivity |].
      symmetry. apply Z.leb_gt. lia.
    - lia. }
  pose proof (class_to_mask_total y) as Hf.
  pose proof (to_uint32_range y) as [Hlo Hhi]. unfold UINT32_WIDTH in Hhi.
  change (2 ^ 32) with 4294967296 in *.
  split; [exact Hc |]. split.
  - intros mask. rewrite Hc, Hf.
    destruct (Z.leb_spec 0 y); destruct (Z.ltb_spec y 32); cbn [andb];
      try discriminate.
    rewrite (to_uint32_small y)
      by (unfold is_uint32, UINT32_WIDTH; change (2 ^ 32) with 4294967296; lia).
    replace (y <? 32) with true by (symmetry; apply Z.ltb_lt; lia). tauto.
  - rewrite Hc, Hf. split.
    + intros Hne.
      destruct (Z.ltb_spec (to_uint32 y) 32) as [Hlt | Hge].
      * split; [| exact Hlt].
        destruct (Z_lt_dec y 0) as [| Hy0]; [left; assumption |].
        destruct (Z_le_dec 4294967296 y) as [| Hy1]; [right; assumption |].
        exfalso. apply Hne.
        assert (to_uint32 y = y) as Heq
          by (apply to_uint32_small; unfold is_uint32, UINT32_WIDTH;
              change (2 ^ 32) with 4294967296; lia).
        rewrite Heq in *.
        replace (0 <=? y) with true by (symmetry; apply Z.leb_le; lia).
        replace (y <? 32) with true by (symmetry; apply Z.ltb_lt; lia).
        reflexivity.
      * exfalso. apply Hne.
        destruct (Z.leb_spec 0 y); destruct (Z.ltb_spec y 32); cbn [andb];
          try reflexivity.
        assert (to_uint32 y = y)
          by (apply to_uint32_small; unfold is_uint32, UINT32_WIDTH;
              change (2 ^ 32) with 4294967296; lia).
        lia.
    + intros [Hout Hlt].
      replace (to_uint32 y <? 32) with true by (symmetry; apply Z.ltb_lt; lia).
      replace ((0 <=? y) && (y <? 32)) with false; [discriminate |].
      symmetry. apply andb_false_iff.
      destruct Hout; [left; apply Z.leb_gt | right; apply Z.ltb_ge]; lia.
Qed.

(** ** Reserved values *)

(** The reserved values written as a complement of zero are the largest
    values of their types: no emulated address lies above
    [VMIOP_EMUL_ADDR_NONE], no page number above
    [VMIOP_PAGE_NUMBER_NULL], no display number above
    [VMIOP_DISPLAY_ALL]; and [VMIOP_TIME_NO_LIMIT] is the one absolute
    time that no current time has passed. *)
Theorem reserved_values_are_maxima :
  (VMIOP_EMUL_ADDR_NONE = 2 ^ 64 - 1
   /\ VMIOP_TIME_NO_LIMIT = 2 ^ 64 - 1
   /\ VMIOP_PAGE_NUMBER_NULL = 2 ^ 64 - 1
   /\ VMIOP_DISPLAY_ALL = 2 ^ 32 - 1)
  /\ (forall a, is_uint64 a -> a <= VMIOP_EMUL_ADDR_NONE)
  /\ (forall p, is_uint64 p -> p <= VMIOP_PAGE_NUMBER_NULL)
  /\ (forall n, is_uint32 n -> n <= VMIOP_DISPLAY_ALL)
  /\ (forall t, is_uint64 t ->
      (forall now, is_uint64 now -> now <= t) <-> t = VMIOP_TIME_NO_LIMIT).
Proof.
  assert (VMIOP_EMUL_ADDR_NONE = 2 ^ 64 - 1) as Ha by reflexivity.
  assert (VMIOP_TIME_NO_LIMIT = 2 ^ 64 - 1) as Ht by reflexivity.
  assert (VMIOP_PAGE_NUMBER_NULL = 2 ^ 64 - 1) as Hp by reflexivity.
  assert (VMIOP_DISPLAY_ALL = 2 ^ 32 - 1) as Hd by reflexivity.
  split; [repeat split; assumption |].
  unfold is_uint64, is_uint32, UINT64_WIDTH, UINT32_WIDTH.
  rewrite Ha, Ht, Hp, Hd.
  split; [intros; lia |]. split; [intros; lia |]. split; [intros; lia |].
  intros t Ht'. split.
  - intros Hmax. specialize (Hmax (2 ^ 64 - 1)). lia.
  - intros -> now Hnow. lia.
Qed.

(** ** Releases of a buffer's references *)

Lemma set_references_set_references (b : vmiop_buffer_t) (n n' : Z) :
  set_references (set_references b n) n' = set_references b n'.
Proof. reflexivity. Qed.

Lemma load_buffer_Some (m : memory) (p : Z) (b : vmiop_buffer_t) :
  load_buffer m p = Some b -> p <> NULL /\ m !! p = Some b.
Proof.
  unfold load_buffer. destruct (decide (p = NULL)); [discriminate | auto].
Qed.

(** One release of a buffer whose routine is [vmiop_buffer_free]. *)
Lemma buffer_release_free_step (m : memory) (p : Z) (b : vmiop_buffer_t) :
  load_buffer m p = Some b -> release_p b = vmiop_buffer_free_p ->
  1 <= references b < 2 ^ 32 ->
  vmiop_buffer_release env_text m p
  = Returns (vmiop_success,
             if references b =? 1 then delete p m
             else <[p := set_references b (references b - 1)]> m).
Proof.
  intros Hb Hrel Hrefs.
  rewrite (buffer_release_dispatch env_text m p b vmiop_buffer_free Hb)
    by (rewrite Hrel; apply lookup_singleton_eq).
  unfold vmiop_buffer_free. rewrite Hb. cbv zeta.
  rewrite (to_uint32_small (references b - 1))
    by (unfold is_uint32, UINT32_WIDTH; lia).
  destruct (Z.eqb_spec (references b - 1) 0) as [H0 | Hn0];
    destruct (Z.eqb_spec (references b) 1); try lia; reflexivity.
Qed.

Lemma release_times_free (n : nat) :
  forall (m : memory) (p : Z) (b : vmiop_buffer_t) (k : nat),
    load_buffer m p = Some b -> release_p b = vmiop_buffer_free_p ->
    references b = Z.of_nat (n + S k) -> Z.of_nat (n + S k) < 2 ^ 32 ->
    release_times env_text n m p
    = Returns (replicate n vmiop_success,
               <[p := set_references b (Z.of_nat (S k))]> m).
Proof.
  induction n as [| n IH]; intros m p b k Hb Hrel Hrefs Hbound.
  - cbn [release_times replicate]. do 2 f_equal.
    apply load_buffer_Some in Hb as [_ Hb].
    symmetry. apply insert_id. rewrite Hb. f_equal.
    destruct b. cbn in Hrefs |- *. unfold set_references. cbn.
    now rewrite Hrefs.
  - cbn [release_times replicate].
    rewrite (buffer_release_free_step m p b Hb Hrel) by lia.
    replace (references b =? 1) with false by (symmetry; apply Z.eqb_neq; lia).
    pose proof (load_buffer_Some m p b Hb) as [Hp _].
    rewrite (IH _ p (set_references b (references b - 1)) k);
      [| apply load_buffer_insert, Hp | exact Hrel | cbn; lia | lia].
    now rewrite set_references_set_references, insert_insert_eq.
Qed.

(** The references of a buffer released one by one through
    [vmiop_buffer_release], the buffer's routine being
    [vmiop_buffer_free] and its count [n].  Every release but the last
    returns success and leaves the buffer in place with one reference
    fewer; the last returns success and frees it, every other buffer
    being left as it was; one release more is an access through a
    pointer to no buffer. *)
Theorem release_all_references
    (m : memory) (buf_p : Z) (b : vmiop_buffer_t) (n : nat) :
  load_buffer m buf_p = Some b ->
  release_p b = vmiop_buffer_free_p ->
  references b = Z.of_nat n -> (1 <= n)%nat -> Z.of_nat n < 2 ^ 32 ->
  (forall k, (k < n)%nat ->
     release_times env_text k m buf_p
     = Returns (replicate k vmiop_success,
                <[buf_p := set_references b (Z.of_nat (n - k))]> m))
  /\ release_times env_text n m buf_p
     = Returns (replicate n vmiop_success, delete buf_p m)
  /\ release_times env_text (S n) m buf_p = Undef.
Proof.
  intros Hb Hrel Hrefs Hn Hbound.
  pose proof (load_buffer_Some m buf_p b Hb) as [Hp Hm].
  assert (forall k, (k < n)%nat ->
            release_times env_text k m buf_p
            = Returns (replicate k vmiop_success,
                       <[buf_p := set_references b (Z.of_nat (n - k))]> m))
    as Hpart.
  { intros k Hk.
    replace (n - k)%nat with (S (n - k - 1)) by lia.
    apply release_times_free; try assumption.
    - rewrite Hrefs. f_equal. lia.
    - replace (k + S (n - k - 1))%nat with n by lia. exact Hbound. }
  split; [exact Hpart |].
  assert (forall j (m0 : memory) (b0 : vmiop_buffer_t),
            load_buffer m0 buf_p = Some b0 ->
            release_p b0 = vmiop_buffer_free_p ->
            references b0 = Z.of_nat (S j) -> Z.of_nat (S j) < 2 ^ 32 ->
            release_times env_text (S j) m0 buf_p
            = Returns (replicate (S j) vmiop_success, delete buf_p m0)
            /\ release_times env_text (S (S j)) m0 buf_p = Undef) as Hall.
  { induction j as [| j IH]; intros m0 b0 Hb0 Hrel0 Hrefs0 Hbound0.
    - assert (vmiop_buffer_release env_text m0 buf_p
              = Returns (vmiop_success, delete buf_p m0)) as Hlast.
      { rewrite (buffer_release_free_step m0 buf_p b0 Hb0 Hrel0) by lia.
        now rewrite Hrefs0. }
      assert (vmiop_buffer_release env_text (delete buf_p m0) buf_p = Undef)
        as Hgone by (apply buffer_release_foreign_undefined, lookup_delete_eq).
      split.
      + cbn [release_times replicate]. now rewrite Hlast.
      + cbn [release_times]. now rewrite Hlast, Hgone.
    - pose proof (load_buffer_Some m0 buf_p b0 Hb0) as [Hp0 _].
      assert (vmiop_buffer_release env_text m0 buf_p
              = Returns (vmiop_success,
                         <[buf_p := set_references b0 (Z.of_nat (S j))]> m0))
        as Hstep.
      { rewrite (buffer_release_free_step m0 buf_p b0 Hb0 Hrel0) by lia.
        replace (references b0 =? 1) with false
          by (symmetry; apply Z.eqb_neq; lia).
        do 4 f_equal. lia. }
      destruct (IH (<[buf_p := set_references b0 (Z.of_nat (S j))]> m0)
                   (set_references b0 (Z.of_nat (S j))))
        as [Hfree Hover];
        [apply load_buffer_insert, Hp0 | exact Hrel0 | reflexivity | lia |].
      rewrite delete_insert_eq in Hfree.
      split.
      + change (release_times env_text (S (S j)) m0 buf_p)
          with (match vmiop_buffer_release env_text m0 buf_p with
                | Undef => Undef
                | Returns (e, m') =>
                    match release_times env_text (S j) m' buf_p with
                    | Undef => Undef
                    | Returns (es, m'') => Returns (e :: es, m'')
                    end
                end).
        rewrite Hstep, Hfree. reflexivity.
      + change (release_times env_text (S (S (S j))) m0 buf_p)
          with (match vmiop_buffer_release env_text m0 buf_p with
                | Undef => Undef
                | Returns (e, m') =>
                    match release_times env_text (S (S j)) m' buf_p with
                    | Undef => Undef
                    | Returns (es, m'') => Returns (e :: es, m'')
                    end
                end).
        rewrite Hstep, Hover. reflexivity. }
  destruct n as [| j]; [lia |].
  exact (Hall j m b Hb Hrel Hrefs Hbound).
Qed.

(** A buffer with two holders: two releases free it, a third is
    undefined. *)
Lemma release_all_references_witness :
  (references <$> load_buffer (snd (buffer_hold (snd scenario_alloc) heap_base))
                    heap_base) = Some 2
  /\ release_times env_text 2 (snd (buffer_hold (snd scenario_alloc) heap_base))
       heap_base
     = Returns ([vmiop_success; vmiop_success],
                delete heap_base (snd (buffer_hold (snd scenario_alloc) heap_base)))
  /\ release_times env_text 3 (snd (buffer_hold (snd scenario_alloc) heap_base))
       heap_base
     = Undef.
Proof.
  set (m := snd (buffer_hold (snd scenario_alloc) heap_base)).
  assert (exists b, load_buffer m heap_base = Some b
                    /\ release_p b = vmiop_buffer_free_p
                    /\ references b = Z.of_nat 2) as (b & Hb & Hrel & Hrefs).
  { eexists. split; [vm_compute; reflexivity |]. split; reflexivity. }
  destruct (release_all_references m heap_base b 2 Hb Hrel Hrefs)
    as (_ & Hall & Hover); [lia | reflexivity |].
  split; [rewrite Hb; cbn; now rewrite Hrefs |].
  split; [exact Hall | exact Hover].
Defined.

(** ** The message signature and the byte order *)

Lemma testbit_byte_of (w k j : Z) :
  0 <= k ->
  Z.testbit (Z.land (Z.shiftr w k) 255) j
  = (0 <=? j) && (j <? 8) && Z.testbit w (j + k).
Proof.
  intros Hk. change 255 with (Z.ones 8). rewrite Z.land_spec.
  destruct (Z.leb_spec 0 j) as [Hj | Hj].
  - rewrite Z.shiftr_spec, Z.testbit_ones_nonneg by lia.
    cbn [andb]. apply andb_comm.
  - now rewrite (Z.testbit_neg_r (Z.ones 8)), andb_false_r by lia.
Qed.

Lemma uint32_of_its_bytes (w : Z) :
  is_uint32 w ->
  Z.lor (Z.land w 255)
    (Z.lor (Z.shiftl (Z.land (Z.shiftr w 8) 255) 8)
       (Z.lor (Z.shiftl (Z.land (Z.shiftr w 16) 255) 16)
              (Z.shiftl (Z.land (Z.shiftr w 24) 255) 24)))
  = w.
Proof.
  intros Hw. apply Z.bits_inj'. intros i Hi.
  rewrite <- (Z.shiftr_0_r w) at 1.
  rewrite !Z.lor_spec, !Z.shiftl_spec, !testbit_byte_of by lia.
  rewrite Z.add_0_r.
  replace (i - 8 + 8) with i by lia.
  replace (i - 16 + 16) with i by lia.
  replace (i - 24 + 24) with i by lia.
  destruct (Z.ltb_spec i 32) as [Hlt | Hge].
  - destruct (Z.testbit w i); [| now rewrite !andb_false_r].
    rewrite !andb_true_r.
    destruct (Z.ltb_spec i 8), (Z.ltb_spec (i - 8) 8), (Z.ltb_spec (i - 16) 8),
      (Z.ltb_spec (i - 24) 8), (Z.leb_spec 0 i), (Z.leb_spec 0 (i - 8)),
      (Z.leb_spec 0 (i - 16)), (Z.leb_spec 0 (i - 24));
      cbn; try reflexivity; lia.
  - assert (Z.testbit w i = false) as ->.
    { rewrite <- (to_uint32_small w Hw). unfold to_uint32, UINT32_WIDTH.
      apply Z.mod_pow2_bits_high. lia. }
    now rewrite !andb_false_r.
Qed.

(** The signature of the common message header tells the byte order.
    A 32-bit field read in the order it was stored in is the value
    stored; [VMIOP_MC_SIGNATURE], and likewise [VMIOP_MC_VERSION], read
    in the other order is a different value, so a reader finds the
    signature exactly when its byte order is the writer's.  Stored least
    significant byte first the signature is the bytes of "VMIO". *)
Theorem message_signature_tells_byte_order :
  (forall o w, is_uint32 w -> load_uint32 o (store_uint32 o w) = Some w)
  /\ (forall o o',
      load_uint32 o' (store_uint32 o VMIOP_MC_SIGNATURE)
      = Some VMIOP_MC_SIGNATURE <-> o' = o)
  /\ (forall o o',
      load_uint32 o' (store_uint32 o VMIOP_MC_VERSION)
      = Some VMIOP_MC_VERSION <-> o' = o)
  /\ store_uint32 little_endian VMIOP_MC_SIGNATURE = [86; 77; 73; 79].
Proof.
  split; [| split; [| split]].
  - intros o w Hw.
    destruct o; unfold store_uint32, load_uint32, bytes_of_uint32, reverse;
      cbn [rev_append]; f_equal; apply uint32_of_its_bytes, Hw.
  - intros [|] [|]; split; intros H; try reflexivity;
      try discriminate H; vm_compute in H; discriminate H.
  - intros [|] [|]; split; intros H; try reflexivity;
      try discriminate H; vm_compute in H; discriminate H.
  - reflexivity.
Qed.
